(** * AdvancedRAGChat.run: a shallow embedding of fastapi_app/rag_advanced.py

    The orchestrator awaits two collaborators (the chat-completion client and
    the Postgres searcher) and calls the prompt builder of
    openai_messages_token_helper twice.  These calls are kept symbolic: [run]
    is a finite tree of calls, and [interp] executes it against an arbitrary
    stateful handler while logging every call with its outcome. *)

From Stdlib Require Import ZArith List Ascii String PrimFloat.
From stdpp Require Import gmap strings list fin_maps pretty.

Set Warnings "-register-all,-inexact-float,-clear-no-such-hyp".
Open Scope string_scope.
Open Scope Z_scope.

(** ** Python values *)

Inductive pyval : Type :=
| PyNone
| PyBool (b : bool)
| PyInt (z : Z)
| PyFloat (f : float)
| PyStr (s : string)
| PyList (l : list pyval)
| PyDict (d : list (string * pyval)).

(** [bool(v)]: the truth value Python's [or] and [if] test. *)
Definition py_truthy (v : pyval) : bool :=
  match v with
  | PyNone => false
  | PyBool b => b
  | PyInt z => negb (z =? 0)
  | PyFloat f => negb (PrimFloat.eqb f 0%float)
  | PyStr s => negb (String.eqb s EmptyString)
  | PyList l => match l with [] => false | _ => true end
  | PyDict d => match d with [] => false | _ => true end
  end.

(** [x == lit] for a literal that is a [str] or [None]: such a literal equals
    only a value of its own type with the same contents. *)
Definition py_eq_literal (x lit : pyval) : bool :=
  match lit, x with
  | PyNone, PyNone => true
  | PyStr a, PyStr b => String.eqb a b
  | _, _ => false
  end.

(** [x in [lit; ...]] *)
Definition py_in (x : pyval) (lits : list pyval) : bool :=
  existsb (py_eq_literal x) lits.

(** [d.get(k)] and [d.get(k, dflt)] *)
Definition py_get (d : gmap string pyval) (k : string) : pyval :=
  default PyNone (d !! k).

Definition py_get_default (d : gmap string pyval) (k : string) (dflt : pyval) : pyval :=
  default dflt (d !! k).

(** [a or b] *)
Definition py_or (a b : pyval) : pyval := if py_truthy a then a else b.

(** [isinstance(v, str)] *)
Definition isinstance_str (v : pyval) : bool :=
  match v with PyStr _ => true | _ => false end.

(** The one-character string written ["\n"] in the source. *)
Definition nl : string := String "010"%char EmptyString.

(** [sep.join(l)] *)
Fixpoint py_join (sep : string) (l : list string) : string :=
  match l with
  | [] => EmptyString
  | [x] => x
  | x :: xs => x +:+ sep +:+ py_join sep xs
  end.

(** [str(z)] for an [int] *)
Definition py_str_int (z : Z) : string := pretty z.

Inductive exn : Type :=
| IndexError
| KeyError (key : string)
| ValueError (msg : string)
| CollaboratorError (name : string).

(** ** Data exchanged with the collaborators *)

(** A [ChatCompletionMessageParam] is a typed dict. *)
Abbreviation ChatCompletionMessageParam := (gmap string pyval).

(** Keyword arguments of [build_messages]. *)
Module BuildMessages.
Record kwargs : Type := Kwargs {
    model : string;
    system_prompt : pyval;
    new_user_content : string;
    past_messages : list ChatCompletionMessageParam;
    max_tokens : Z;
    fallback_to_default : bool
  }.
End BuildMessages.

(** Keyword arguments of [chat.completions.create]; an argument the call
    site does not pass is [None]. *)
Module ChatCreate.
Record kwargs : Type := Kwargs {
    messages : list ChatCompletionMessageParam;
    model : string;
    temperature : pyval;
    max_tokens : Z;
    n : Z;
    tools : option (list pyval);
    tool_choice : option string;
    stream : option bool
  }.
End ChatCreate.

Module ToolCall.
Record t : Type := Make {
    type : string;
    name : string;
    arguments : string
  }.
End ToolCall.

Module ChatCompletionMessage.
Record t : Type := Make {
    content : option string;
    role : string;
    tool_calls : option (list ToolCall.t)
  }.
End ChatCompletionMessage.

Module Choice.
Record t : Type := Make { message : ChatCompletionMessage.t }.
End Choice.

Module ChatCompletion.
Record t : Type := Make { choices : list Choice.t }.
End ChatCompletion.

(** A structured predicate handed to the searcher. *)
Module RetrievalFilter.
Record t : Type := Make {
    field : string;
    comparator : string;
    value : pyval
  }.
End RetrievalFilter.

(** Arguments of [searcher.search_and_embed]. *)
Module Search.
Record kwargs : Type := Kwargs {
    query_text : string;
    top : pyval;
    enable_vector_search : bool;
    enable_text_search : bool;
    filters : list RetrievalFilter.t
  }.
End Search.

(** A retrieved row, with the results of its methods [to_str_for_rag()]
    and [to_dict()]. *)
Module Item.
Record t : Type := Make {
    id : Z;
    to_str_for_rag : string;
    to_dict : list (string * pyval)
  }.
End Item.

(** ** The response (api_models) *)

Module Message.
Record t : Type := Make { content : string; role : string }.
End Message.

Inductive prop_value : Type :=
| PropVal (v : pyval)
| PropFilters (fs : list RetrievalFilter.t).

Inductive description_value : Type :=
| DescStr (s : string)
| DescStrList (l : list string)
| DescDictList (l : list (list (string * pyval))).

(** [props] is [None] where the constructor call passes no [props]. *)
Module ThoughtStep.
Record t : Type := Make {
    title : string;
    description : description_value;
    props : option (gmap string prop_value)
  }.
End ThoughtStep.

Module RAGContext.
Record t : Type := Make {
    data_points : gmap Z (list (string * pyval));
    thoughts : list ThoughtStep.t
  }.
End RAGContext.

Module RetrievalResponse.
Record t : Type := Make {
    message : Message.t;
    context : RAGContext.t
  }.
End RetrievalResponse.

(** ** Programs over the collaborators *)

(** One constructor per call that leaves the orchestrator, indexed by the
    type of what the call returns. *)
Inductive callE : Type -> Type :=
| BuildMessagesCall (a : BuildMessages.kwargs) : callE (list ChatCompletionMessageParam)
| ChatCreateCall (a : ChatCreate.kwargs) : callE ChatCompletion.t
| SearchAndEmbedCall (a : Search.kwargs) : callE (list Item.t).

Inductive prog (A : Type) : Type :=
| Ret (a : A)
| Raise (e : exn)
| Call {X : Type} (c : callE X) (k : X -> prog A).

Arguments Ret {A} a.
Arguments Raise {A} e.
Arguments Call {A X} c k.

Fixpoint prog_bind {A B : Type} (f : A -> prog B) (p : prog A) : prog B :=
  match p with
  | Ret a => f a
  | Raise e => Raise e
  | Call c k => Call c (fun x => prog_bind f (k x))
  end.

#[export] Instance prog_ret : MRet prog := fun A a => Ret a.
#[export] Instance prog_bind_inst : MBind prog := fun A B f p => prog_bind f p.

Definition call {X : Type} (c : callE X) : prog X := Call c Ret.

(** A pure step that may raise. *)
Definition lift {A : Type} (r : exn + A) : prog A :=
  match r with inl e => Raise e | inr a => Ret a end.

(** A logged call: the arguments and what the collaborator answered. *)
Inductive event : Type :=
| EvBuildMessages (a : BuildMessages.kwargs) (r : exn + list ChatCompletionMessageParam)
| EvChatCreate (a : ChatCreate.kwargs) (r : exn + ChatCompletion.t)
| EvSearchAndEmbed (a : Search.kwargs) (r : exn + list Item.t).

Definition event_of {X : Type} (c : callE X) : exn + X -> event :=
  match c in callE X return exn + X -> event with
  | BuildMessagesCall a => EvBuildMessages a
  | ChatCreateCall a => EvChatCreate a
  | SearchAndEmbedCall a => EvSearchAndEmbed a
  end.

(** The collaborators, as one stateful handler over a world [W]: a call
    either raises or returns, and may change the world. *)
Definition handler (W : Type) : Type := forall X : Type, callE X -> W -> (exn + X) * W.

(** An exception raised by a collaborator is not caught: it ends the run. *)
Fixpoint interp {W A : Type} (h : handler W) (p : prog A) (w : W) : list event * (exn + A) :=
  match p with
  | Ret a => ([], inr a)
  | Raise e => ([], inl e)
  | Call c k =>
      match h _ c w with
      | (inl e, _) => ([event_of c (inl e)], inl e)
      | (inr x, w') =>
          let '(t, r) := interp h (k x) w' in (event_of c (inr x) :: t, r)
      end
  end.

Definition trace_of {W A : Type} (h : handler W) (p : prog A) (w : W) : list event :=
  (interp h p w).1.

Definition outcome_of {W A : Type} (h : handler W) (p : prog A) (w : W) : exn + A :=
  (interp h p w).2.

(** The calls of each kind, in the order they were made. *)
Definition build_calls (t : list event) : list BuildMessages.kwargs :=
  omap (fun ev => match ev with EvBuildMessages a _ => Some a | _ => None end) t.

Definition chat_calls (t : list event) : list ChatCreate.kwargs :=
  omap (fun ev => match ev with EvChatCreate a _ => Some a | _ => None end) t.

Definition search_calls (t : list event) : list Search.kwargs :=
  omap (fun ev => match ev with EvSearchAndEmbed a _ => Some a | _ => None end) t.

(** What the calls of a kind returned, in order (a raising call is [inl]). *)
Definition chat_answers (t : list event) : list (exn + ChatCompletion.t) :=
  omap (fun ev => match ev with EvChatCreate _ r => Some r | _ => None end) t.

Definition search_answers (t : list event) : list (exn + list Item.t) :=
  omap (fun ev => match ev with EvSearchAndEmbed _ r => Some r | _ => None end) t.

Definition build_answers (t : list event) : list (exn + list ChatCompletionMessageParam) :=
  omap (fun ev => match ev with EvBuildMessages _ r => Some r | _ => None end) t.

(** ** Python list and dict access *)

(** [l[-1]] *)
Definition py_index_last {A : Type} (l : list A) : exn + A :=
  match last l with Some x => inr x | None => inl IndexError end.

(** [l[0]] *)
Definition py_index_first {A : Type} (l : list A) : exn + A :=
  match l with x :: _ => inr x | [] => inl IndexError end.

(** [d[k]] *)
Definition py_getitem (d : gmap string pyval) (k : string) : exn + pyval :=
  match d !! k with Some v => inr v | None => inl (KeyError k) end.

(** [{k: v for ...}]: keys are inserted in iteration order, so of two
    entries with one key the later one stays. *)
Definition py_dict_comp {K V : Type} `{Countable K} (kvs : list (K * V)) : gmap K V :=
  foldl (fun m kv => <[kv.1 := kv.2]> m) ∅ kvs.

(** [str(o)] for an [Optional[str]] *)
Definition py_str_optional (o : option string) : string :=
  match o with Some s => s | None => "None" end.

(** ** The orchestrator *)

(** The attributes [__init__] stores on [self].  [chat_token_limit] is
    [get_token_limit(chat_model, default_to_minimum=True)], and the two
    templates are the contents of prompts/query.txt and prompts/answer.txt;
    the searcher and the chat client are the [handler]. *)
Module AdvancedRAGChat.
Record t : Type := Make {
    chat_model : string;
    chat_deployment : option string;
    chat_token_limit : Z;
    query_prompt_template : string;
    answer_prompt_template : string
  }.
End AdvancedRAGChat.

(** [if self.chat_deployment]: [None] and the empty string are false. *)
Definition deployment_set (self : AdvancedRAGChat.t) : option string :=
  match AdvancedRAGChat.chat_deployment self with
  | Some d => if String.eqb d EmptyString then None else Some d
  | None => None
  end.

(** The active query of a conversation: the content of its last message,
    when there is one and it is a [str]. *)
Definition user_query (messages : list ChatCompletionMessageParam) : option string :=
  match last messages with
  | Some last_message =>
      match last_message !! "content" with
      | Some (PyStr original_user_query) => Some original_user_query
      | _ => None
      end
  | None => None
  end.

(** The f-string of the [sources_content] comprehension:
    [f"[{(item.id)}]:{item.to_str_for_rag()}\n\n"]. *)
Definition render_item (item : Item.t) : string :=
  "[" +:+ py_str_int (Item.id item) +:+ "]:" +:+ Item.to_str_for_rag item +:+ nl +:+ nl.

Section Orchestrator.

(** [query_rewriter.build_search_function()]: the tool schema. *)
Variable build_search_function : list pyval.

(** [query_rewriter.extract_search_arguments], which may raise. *)
Variable extract_search_arguments :
    string -> ChatCompletion.t -> exn + (string * list RetrievalFilter.t).

(** The builtin [str] on a message dict. *)
Variable py_str : ChatCompletionMessageParam -> string.

Definition run (self : AdvancedRAGChat.t)
      (messages : list ChatCompletionMessageParam)
      (overrides : gmap string pyval) : prog RetrievalResponse.t :=
    let text_search :=
      py_in (py_get overrides "retrieval_mode") [PyStr "text"; PyStr "hybrid"; PyNone] in
    let vector_search :=
      py_in (py_get overrides "retrieval_mode") [PyStr "vectors"; PyStr "hybrid"; PyNone] in
    let top := py_get_default overrides "top" (PyInt 3) in
    last_message ← lift (py_index_last messages);
    content ← lift (py_getitem last_message "content");
    match content with
    | PyStr original_user_query =>
        let past_messages := removelast messages in
        let query_response_token_limit := 500 in
        query_messages ← call (BuildMessagesCall {|
          BuildMessages.model := AdvancedRAGChat.chat_model self;
          BuildMessages.system_prompt := PyStr (AdvancedRAGChat.query_prompt_template self);
          BuildMessages.new_user_content := original_user_query;
          BuildMessages.past_messages := past_messages;
          BuildMessages.max_tokens :=
            AdvancedRAGChat.chat_token_limit self - query_response_token_limit;
          BuildMessages.fallback_to_default := true |});
        chat_completion ← call (ChatCreateCall {|
          ChatCreate.messages := query_messages;
          ChatCreate.model :=
            match deployment_set self with
            | Some d => d
            | None => AdvancedRAGChat.chat_model self
            end;
          ChatCreate.temperature := PyFloat 0.0;
          ChatCreate.max_tokens := query_response_token_limit;
          ChatCreate.n := 1;
          ChatCreate.tools := Some build_search_function;
          ChatCreate.tool_choice := Some "auto";
          ChatCreate.stream := None |});
        '(query_text, filters) ←
          lift (extract_search_arguments original_user_query chat_completion);
        results ← call (SearchAndEmbedCall {|
          Search.query_text := query_text;
          Search.top := top;
          Search.enable_vector_search := vector_search;
          Search.enable_text_search := text_search;
          Search.filters := filters |});
        let sources_content := map render_item results in
        let content := py_join nl sources_content in
        let response_token_limit := 1024 in
        contextual_messages ← call (BuildMessagesCall {|
          BuildMessages.model := AdvancedRAGChat.chat_model self;
          BuildMessages.system_prompt :=
            py_or (py_get overrides "prompt_template")
                  (PyStr (AdvancedRAGChat.answer_prompt_template self));
          BuildMessages.new_user_content :=
            original_user_query +:+ (nl +:+ nl +:+ "Sources:" +:+ nl) +:+ content;
          BuildMessages.past_messages := past_messages;
          BuildMessages.max_tokens :=
            AdvancedRAGChat.chat_token_limit self - response_token_limit;
          BuildMessages.fallback_to_default := true |});
        chat_completion_response ← call (ChatCreateCall {|
          ChatCreate.messages := contextual_messages;
          ChatCreate.model :=
            match deployment_set self with
            | Some d => d
            | None => AdvancedRAGChat.chat_model self
            end;
          ChatCreate.temperature := py_get_default overrides "temperature" (PyFloat 0.3);
          ChatCreate.max_tokens := response_token_limit;
          ChatCreate.n := 1;
          ChatCreate.tools := None;
          ChatCreate.tool_choice := None;
          ChatCreate.stream := Some false |});
        first_choice ← lift (py_index_first (ChatCompletion.choices chat_completion_response));
        let first_choice_message := Choice.message first_choice in
        let model_props : gmap string prop_value :=
          match deployment_set self with
          | Some d =>
              <["deployment" := PropVal (PyStr d)]>
                {["model" := PropVal (PyStr (AdvancedRAGChat.chat_model self))]}
          | None => {["model" := PropVal (PyStr (AdvancedRAGChat.chat_model self))]}
          end in
        mret {|
          RetrievalResponse.message := {|
            Message.content :=
              py_str_optional (ChatCompletionMessage.content first_choice_message);
            Message.role := ChatCompletionMessage.role first_choice_message |};
          RetrievalResponse.context := {|
            RAGContext.data_points :=
              py_dict_comp (map (fun item => (Item.id item, Item.to_dict item)) results);
            RAGContext.thoughts := [
              {| ThoughtStep.title := "Prompt to generate search arguments";
                 ThoughtStep.description := DescStrList (map py_str query_messages);
                 ThoughtStep.props := Some model_props |};
              {| ThoughtStep.title := "Search using generated search arguments";
                 ThoughtStep.description := DescStr query_text;
                 ThoughtStep.props := Some (
                   <["filters" := PropFilters filters]>
                   (<["text_search" := PropVal (PyBool text_search)]>
                   (<["vector_search" := PropVal (PyBool vector_search)]>
                   {["top" := PropVal top]}))) |};
              {| ThoughtStep.title := "Search results";
                 ThoughtStep.description := DescDictList (map Item.to_dict results);
                 ThoughtStep.props := None |};
              {| ThoughtStep.title := "Prompt to generate answer";
                 ThoughtStep.description := DescStrList (map py_str contextual_messages);
                 ThoughtStep.props := Some model_props |}
            ] |} |}
    | _ => Raise (ValueError "The most recent message content must be a string.")
    end.

End Orchestrator.

(** ** Search-argument extraction (query_rewriter) *)

Module QueryRewriter.

(** Modelled from the spec: the tool schema of query_rewriter.py is not
    among the sources.  One entry of the structured filter parameter of
    the search tool, with the three parts of a RetrievalFilter. *)
Record FilterArgument : Type := MakeFilterArgument {
    field : string;
    comparator : string;
    value : pyval
  }.

(** Modelled from the spec: the decoded arguments of a search tool
    invocation, section 4.2: the free-text query parameter and the optional
    structured filter parameter (absent is the empty list). *)
Record SearchArguments : Type := MakeSearchArguments {
    query : string;
    filter : list FilterArgument
  }.

Variant ToolArgumentParseError : Type :=
  | Unparsable (payload : string).

Definition to_filter (a : FilterArgument) : RetrievalFilter.t :=
    {| RetrievalFilter.field := field a;
       RetrievalFilter.comparator := comparator a;
       RetrievalFilter.value := value a |}.

(** Modelled from the spec: the tool invocation requesting a search
    (the one callable "search" function of section 4.2) that the first
    choice of a completion carries, if any. *)
Definition search_invocation (chat_completion : ChatCompletion.t) : option ToolCall.t :=
    match ChatCompletion.choices chat_completion with
    | [] => None
    | first_choice :: _ =>
        match ChatCompletionMessage.tool_calls (Choice.message first_choice) with
        | None => None
        | Some calls => List.find (fun tc => String.eqb (ToolCall.name tc) "search") calls
        end
    end.

Section Extract.

(** Decoding of the payload of a tool invocation. *)
Variable parse_arguments : string -> ToolArgumentParseError + SearchArguments.

(** Modelled from the spec: query_rewriter.py, which defines
    [extract_search_arguments], is not among the sources.  Section 4.2:
    a structured tool invocation requesting a search is parsed into
    (refined query text, list of RetrievalFilter); freeform text, no
    tool invocation, or a payload that does not parse fall back to the
    original query text with an empty filter list, the parse error
    being recovered locally. *)
Definition extract_search_arguments (original_user_query : string)
        (chat_completion : ChatCompletion.t) : exn + (string * list RetrievalFilter.t) :=
      match search_invocation chat_completion with
      | Some tool =>
          match parse_arguments (ToolCall.arguments tool) with
          | inr args => inr (query args, map to_filter (filter args))
          | inl (Unparsable _) => inr (original_user_query, [])
          end
      | None => inr (original_user_query, [])
      end.

End Extract.

End QueryRewriter.

(** ** The answer prompt as the specification words it

    Section 4.3, ComposeAnswer: every retrieved item is rendered as
    "[id]: <renderable text>\n\n" and the renderings are concatenated in
    result order; the user content is the original query, then
    "\n\nSources:\n", then that block.  Kept apart from [run], to be
    compared with what [run] sends. *)

Definition spec_render_item (item : Item.t) : string :=
  "[" +:+ py_str_int (Item.id item) +:+ "]: " +:+ Item.to_str_for_rag item +:+ nl +:+ nl.

Definition spec_context_block (results : list Item.t) : string :=
  foldr (fun item block => spec_render_item item +:+ block) EmptyString results.

Definition spec_answer_user_content (original_user_query : string)
    (results : list Item.t) : string :=
  original_user_query +:+ (nl +:+ nl +:+ "Sources:" +:+ nl) +:+ spec_context_block results.

(** ** A concrete environment

    A handler in which every call returns, used to run the orchestrator on
    concrete conversations. *)

Module Demo.

Definition self : AdvancedRAGChat.t := {|
  AdvancedRAGChat.chat_model := "gpt-4o-mini";
  AdvancedRAGChat.chat_deployment := Some "chat-eastus";
  AdvancedRAGChat.chat_token_limit := 128000;
  AdvancedRAGChat.query_prompt_template := "Rewrite the question as a search query.";
  AdvancedRAGChat.answer_prompt_template := "Answer from the sources only." |}.

Definition self_no_deployment : AdvancedRAGChat.t := {|
  AdvancedRAGChat.chat_model := "gpt-4o-mini";
  AdvancedRAGChat.chat_deployment := None;
  AdvancedRAGChat.chat_token_limit := 128000;
  AdvancedRAGChat.query_prompt_template := "Rewrite the question as a search query.";
  AdvancedRAGChat.answer_prompt_template := "Answer from the sources only." |}.

Definition tools : list pyval :=
  [PyDict [("type", PyStr "function");
           ("function", PyDict [("name", PyStr "search")])]].

Definition parse_arguments (payload : string)
  : QueryRewriter.ToolArgumentParseError + QueryRewriter.SearchArguments :=
  if String.eqb payload "query=return policy;price<30" then
    inr {| QueryRewriter.query := "return policy";
           QueryRewriter.filter :=
             [{| QueryRewriter.field := "price";
                 QueryRewriter.comparator := "<";
                 QueryRewriter.value := PyInt 30 |}] |}
  else inl (QueryRewriter.Unparsable payload).

Definition extract := QueryRewriter.extract_search_arguments parse_arguments.

Definition message_str (m : ChatCompletionMessageParam) : string :=
  match m !! "content" with Some (PyStr s) => s | _ => "None" end.

Definition user_message (text : string) : ChatCompletionMessageParam :=
  {[ "role" := PyStr "user"; "content" := PyStr text ]}.

Definition tent : Item.t := {|
  Item.id := 1;
  Item.to_str_for_rag := "Name:Tent Price:99";
  Item.to_dict := [("id", PyInt 1); ("name", PyStr "Tent")] |}.

Definition stove : Item.t := {|
  Item.id := 2;
  Item.to_str_for_rag := "Name:Stove Price:25";
  Item.to_dict := [("id", PyInt 2); ("name", PyStr "Stove")] |}.

(** A second row carrying the id of [tent]. *)
Definition tent_again : Item.t := {|
  Item.id := 1;
  Item.to_str_for_rag := "Name:Tent XL Price:149";
  Item.to_dict := [("id", PyInt 1); ("name", PyStr "Tent XL")] |}.

Definition search_completion : ChatCompletion.t := {|
  ChatCompletion.choices := [{|
    Choice.message := {|
      ChatCompletionMessage.content := None;
      ChatCompletionMessage.role := "assistant";
      ChatCompletionMessage.tool_calls := Some [{|
        ToolCall.type := "function";
        ToolCall.name := "search";
        ToolCall.arguments := "query=return policy;price<30" |}] |} |}] |}.

Definition answer_completion : ChatCompletion.t := {|
  ChatCompletion.choices := [{|
    Choice.message := {|
      ChatCompletionMessage.content := Some "Returns are accepted within 30 days [1].";
      ChatCompletionMessage.role := "assistant";
      ChatCompletionMessage.tool_calls := None |} |}] |}.

(** The searcher answers [rows]; the prompt builder keeps system prompt,
    history and new user content; the chat client answers a search tool
    call when it is offered tools and a plain answer otherwise. *)
Definition respond (rows : list Item.t) : handler unit :=
  fun X c w =>
    match c in callE X return (exn + X) * unit with
    | BuildMessagesCall a =>
        (inr ({[ "role" := PyStr "system"; "content" := BuildMessages.system_prompt a ]}
              :: BuildMessages.past_messages a
              ++ [user_message (BuildMessages.new_user_content a)]), w)
    | ChatCreateCall a =>
        (inr (match ChatCreate.tools a with
              | Some _ => search_completion
              | None => answer_completion
              end), w)
    | SearchAndEmbedCall a => (inr rows, w)
    end.

Definition messages : list ChatCompletionMessageParam :=
  [user_message "What is the return policy?"].

(** A last message whose content is a list of parts, not a [str]. *)
Definition parts_messages : list ChatCompletionMessageParam :=
  [user_message "Hello";
   {[ "role" := PyStr "user";
      "content" := PyList [PyDict [("type", PyStr "text"); ("text", PyStr "Hi")]] ]}].

Definition text_top1 : gmap string pyval :=
  {[ "retrieval_mode" := PyStr "text"; "top" := PyInt 1 ]}.

Definition run_demo (self : AdvancedRAGChat.t) (rows : list Item.t)
    (overrides : gmap string pyval) : list event * (exn + RetrievalResponse.t) :=
  interp (respond rows) (run tools extract message_str self messages overrides) tt.

End Demo.

(** ** Construction

    [__init__] looks up the token limit of the base model with
    [default_to_minimum=True] and reads the two prompt templates next to
    the module, in that order; the searcher and the chat client it stores
    are the [handler]. *)

Section Init.

(** [openai_messages_token_helper.get_token_limit(model, default_to_minimum)] *)
Variable get_token_limit : string -> bool -> exn + Z.

(** [open(current_dir / path).read()] *)
Variable read_text : string -> exn + string.

Definition init (chat_model : string) (chat_deployment : option string)
  : exn + AdvancedRAGChat.t :=
  match get_token_limit chat_model true with
  | inl e => inl e
  | inr chat_token_limit =>
      match read_text "prompts/query.txt" with
      | inl e => inl e
      | inr query_prompt_template =>
          match read_text "prompts/answer.txt" with
          | inl e => inl e
          | inr answer_prompt_template =>
              inr {| AdvancedRAGChat.chat_model := chat_model;
                     AdvancedRAGChat.chat_deployment := chat_deployment;
                     AdvancedRAGChat.chat_token_limit := chat_token_limit;
                     AdvancedRAGChat.query_prompt_template := query_prompt_template;
                     AdvancedRAGChat.answer_prompt_template := answer_prompt_template |}
          end
      end
  end.

End Init.

(** ** Reading a call log *)

Variant call_kind : Type := BuildKind | ChatKind | SearchKind.

Definition event_kind (ev : event) : call_kind :=
  match ev with
  | EvBuildMessages _ _ => BuildKind
  | EvChatCreate _ _ => ChatKind
  | EvSearchAndEmbed _ _ => SearchKind
  end.

(** The exception a logged call raised, if it raised. *)
Definition event_raised (ev : event) : option exn :=
  match ev with
  | EvBuildMessages _ (inl e) | EvChatCreate _ (inl e) | EvSearchAndEmbed _ (inl e) => Some e
  | _ => None
  end.

(** ** Further environments *)

Module Scenario.

(** As [Demo.respond], with the completion of the answer phase given. *)
Definition respond_with (rows : list Item.t) (answer : ChatCompletion.t) : handler unit :=
  fun X c w =>
    match c in callE X return (exn + X) * unit with
    | ChatCreateCall a =>
        (inr (match ChatCreate.tools a with
              | Some _ => Demo.search_completion
              | None => answer
              end), w)
    | c => Demo.respond rows _ c w
    end.

(** A completion whose first choice has no content, and a second choice. *)
Definition silent_completion : ChatCompletion.t := {|
  ChatCompletion.choices := [
    {| Choice.message := {|
         ChatCompletionMessage.content := None;
         ChatCompletionMessage.role := "assistant";
         ChatCompletionMessage.tool_calls := None |} |};
    {| Choice.message := {|
         ChatCompletionMessage.content := Some "ignored";
         ChatCompletionMessage.role := "tool";
         ChatCompletionMessage.tool_calls := None |} |}] |}.

Definition no_choice_completion : ChatCompletion.t :=
  {| ChatCompletion.choices := [] |}.

(** The world counts the calls still to be answered: the call made when it
    is 0 raises, the earlier ones are answered as by [Demo.respond]. *)
Definition fail_after (rows : list Item.t) : handler nat :=
  fun X c w =>
    match w with
    | O => (inl (CollaboratorError "APIConnectionError"), O)
    | S w' => ((Demo.respond rows X c tt).1, w')
    end.

(** An extraction that raises on every completion. *)
Definition raising_extract (original_user_query : string)
    (chat_completion : ChatCompletion.t) : exn + (string * list RetrievalFilter.t) :=
  inl (ValueError "Expecting value").

Definition get_token_limit (model : string) (default_to_minimum : bool) : exn + Z :=
  if String.eqb model "gpt-4o-mini" then inr 128000
  else if default_to_minimum then inr 4000
  else inl (ValueError "Called with unknown model name").

Definition read_text (path : string) : exn + string :=
  if String.eqb path "prompts/query.txt"
  then inr "Rewrite the question as a search query."
  else if String.eqb path "prompts/answer.txt"
  then inr "Answer from the sources only."
  else inl (CollaboratorError "FileNotFoundError").

(** A conversation with history, whose earlier turn has a content that is
    a list of parts. *)
Definition history_messages : list ChatCompletionMessageParam :=
  [ {[ "role" := PyStr "user";
       "content" := PyList [PyDict [("type", PyStr "text"); ("text", PyStr "Hi")]] ]};
    {[ "role" := PyStr "assistant"; "content" := PyStr "Hello, how can I help?" ]};
    Demo.user_message "What is the return policy?" ].

(** A last message that is an assistant turn without content. *)
Definition no_content_messages : list ChatCompletionMessageParam :=
  [ Demo.user_message "Hello"; {[ "role" := PyStr "assistant" ]} ].

End Scenario.

(** ** Proof support *)

#[global] Arguments py_in : simpl never.
#[global] Arguments py_get : simpl never.
#[global] Arguments py_get_default : simpl never.
#[global] Arguments py_or : simpl never.
#[global] Arguments py_join : simpl never.
#[global] Arguments py_dict_comp : simpl never.
#[global] Arguments deployment_set : simpl never.

Ltac reduce_prog :=
  cbn [prog_bind interp fst snd event_of
       build_calls chat_calls search_calls
       build_answers chat_answers search_answers omap mbind list_omap] in *.

Ltac unfold_prog :=
  unfold trace_of, outcome_of, call, lift, mbind, prog_bind_inst, mret, prog_ret in *;
  reduce_prog.

(** Case analysis on what the handler answers to the next call. *)
Ltac next_call h :=
  match goal with
  | |- context [h ?X ?c ?w] =>
      let e := fresh "e" in
      let x := fresh "x" in
      let w' := fresh "w" in
      let E := fresh "Hcall" in
      destruct (h X c w) as [[e|x] w'] eqn:E; reduce_prog
  end.

(** Case analysis along a whole run: the input checks, every call, the
    extraction and the first choice of the answer. *)
Ltac run_cases h :=
  unfold run, py_index_last, py_getitem; unfold_prog;
  repeat first
    [ next_call h
    | match goal with
      | |- context [last ?l] =>
          let E := fresh "Hlast" in destruct (last l) eqn:E; reduce_prog
      | |- context [@lookup _ _ _ _ "content" ?m] =>
          let E := fresh "Hcontent" in
          destruct (@lookup _ _ _ _ "content" m) as [[]|] eqn:E; reduce_prog
      | |- context [prog_bind _ (match ?r with inl _ => _ | inr _ => _ end)] =>
          let E := fresh "Hextract" in
          destruct r as [?|[? ?]] eqn:E; reduce_prog
      | |- context [py_index_first (ChatCompletion.choices ?c)] =>
          let E := fresh "Hchoices" in
          destruct (ChatCompletion.choices c) eqn:E; cbn [py_index_first]; reduce_prog
      end ].

Section RunProperties.

Variable build_search_function : list pyval.
Variable extract_search_arguments :
  string -> ChatCompletion.t -> exn + (string * list RetrievalFilter.t).
Variable py_str : ChatCompletionMessageParam -> string.

Abbreviation run := (run build_search_function extract_search_arguments py_str).

(** C10: on the empty conversation [run] raises [IndexError] when it
    reads the last message; the check that raises [ValueError] is not
    reached, and no collaborator is called. *)
Theorem run_empty_messages_index_error :
  forall (W : Type) (h : handler W) (w : W) self overrides,
    run self [] overrides = Raise IndexError /\
    interp h (run self [] overrides) w = ([], inl IndexError) /\
    (forall msg, IndexError <> ValueError msg).
Proof.
  intros. repeat split; try reflexivity. discriminate.
Qed.

(** X3: a last message without a "content" key fails earlier still, on
    the subscript: [run] raises [KeyError] before its input check and
    before any call. *)
Lemma run_missing_content_key_error :
  forall (W : Type) (h : handler W) (w : W) self messages overrides last_message,
    last messages = Some last_message ->
    last_message !! "content" = None ->
    interp h (run self messages overrides) w = ([], inl (KeyError "content")).
Proof.
  intros W h w self messages overrides last_message Hlast Hcontent.
  unfold run, py_index_last, py_getitem. rewrite Hlast. unfold_prog.
  now rewrite Hcontent.
Qed.

(** C1: when the content of the last message is not a [str], [run] raises
    the [ValueError] of its input check; nothing was called before (no
    prompt building, no chat completion, no retrieval) and no response
    exists. *)
Theorem run_rejects_non_string_content :
  forall (W : Type) (h : handler W) (w : W) self messages overrides last_message content,
    last messages = Some last_message ->
    last_message !! "content" = Some content ->
    isinstance_str content = false ->
    outcome_of h (run self messages overrides) w
      = inl (ValueError "The most recent message content must be a string.") /\
    trace_of h (run self messages overrides) w = [] /\
    chat_calls (trace_of h (run self messages overrides) w) = [] /\
    search_calls (trace_of h (run self messages overrides) w) = [].
Proof.
  intros W h w self messages overrides last_message content Hlast Hcontent Hstr.
  unfold run, py_index_last, py_getitem. rewrite Hlast. unfold_prog.
  rewrite Hcontent. reduce_prog.
  destruct content; try discriminate Hstr; repeat split; reflexivity.
Qed.

(** Membership of [x] in a Python list of [str] and [None] literals. *)
Lemma py_in_mode_iff (overrides : gmap string pyval) (a b : string) :
  py_in (py_get overrides "retrieval_mode") [PyStr a; PyStr b; PyNone] = true <->
  overrides !! "retrieval_mode" = None \/
  overrides !! "retrieval_mode" = Some PyNone \/
  overrides !! "retrieval_mode" = Some (PyStr a) \/
  overrides !! "retrieval_mode" = Some (PyStr b).
Proof.
  unfold py_in, py_get.
  destruct (overrides !! "retrieval_mode") as [[]|]; cbn;
    try (split; [discriminate | intros [?|[?|[?|?]]]; congruence]);
    try (split; auto; fail).
  rewrite orb_false_r, orb_true_iff, !String.eqb_eq.
  split.
  - intros [->| ->]; auto.
  - intros [?|[?|[[= ->]|[= ->]]]]; try discriminate; auto.
Qed.

Lemma user_query_Some messages last_message original_user_query :
  last messages = Some last_message ->
  last_message !! "content" = Some (PyStr original_user_query) ->
  user_query messages = Some original_user_query.
Proof. intros H1 H2. unfold user_query. now rewrite H1, H2. Qed.

(** C2: the searcher is called at most once, and exactly once in a run
    that returns a response.  Whenever the first completion returned and
    the extraction gave (query text, filters), the one call carries that
    query text and those filters, [top] is the override or 3, vector
    search is on iff [retrieval_mode] is vectors, hybrid or unset, and
    text search is on iff it is text, hybrid or unset. *)
Theorem run_search_invocation :
  forall (W : Type) (h : handler W) (w : W) self messages overrides t r,
    interp h (run self messages overrides) w = (t, r) ->
    (forall a, a ∈ search_calls t -> search_calls t = [a]) /\
    (forall response, r = inr response -> exists a, search_calls t = [a]) /\
    (forall original_user_query chat_completion query_text filters,
        user_query messages = Some original_user_query ->
        chat_answers t !! 0%nat = Some (inr chat_completion) ->
        extract_search_arguments original_user_query chat_completion
          = inr (query_text, filters) ->
        exists a, search_calls t = [a] /\
          Search.query_text a = query_text /\ Search.filters a = filters) /\
    (forall a, a ∈ search_calls t ->
        (exists original_user_query chat_completion,
            user_query messages = Some original_user_query /\
            chat_answers t !! 0%nat = Some (inr chat_completion) /\
            extract_search_arguments original_user_query chat_completion
              = inr (Search.query_text a, Search.filters a)) /\
        Search.top a
          = match overrides !! "top" with Some v => v | None => PyInt 3 end /\
        (Search.enable_vector_search a = true <->
           overrides !! "retrieval_mode" = None \/
           overrides !! "retrieval_mode" = Some PyNone \/
           overrides !! "retrieval_mode" = Some (PyStr "vectors") \/
           overrides !! "retrieval_mode" = Some (PyStr "hybrid")) /\
        (Search.enable_text_search a = true <->
           overrides !! "retrieval_mode" = None \/
           overrides !! "retrieval_mode" = Some PyNone \/
           overrides !! "retrieval_mode" = Some (PyStr "text") \/
           overrides !! "retrieval_mode" = Some (PyStr "hybrid"))).
Proof.
  intros W h w self messages overrides t r.
  unfold user_query.
  run_cases h; intros [= <- <-]; reduce_prog.
  all: split; [intros a Ha; solve [inversion Ha | apply list_elem_of_singleton in Ha; now subst]|].
  all: split; [intros response [= ?]; eauto|].
  all: split; [intros q cc qt fs Hq Hc He; try discriminate;
               try (injection Hq as <-); try (injection Hc as <-);
               try congruence;
               try (rewrite He in *; match goal with H : inr _ = inr _ |- _ => injection H as <- <- end);
               eauto|].
  all: intros a Ha; try solve [inversion Ha].
  all: apply list_elem_of_singleton in Ha; subst a.
  all: split; [eauto 6|].
  all: split; [reflexivity|].
  all: split; exact (py_in_mode_iff _ _ _).
Qed.

(** C5: the first chat-completion call of a run is made at temperature
    0.0 with n=1, the search tool schema, automatic tool choice and a
    500-token output cap; the second with stream=False, n=1, a 1024-token
    cap and the [temperature] override or 0.3.  A run makes at most two
    such calls, and two when it returns a response. *)
Theorem run_chat_completion_parameters :
  forall (W : Type) (h : handler W) (w : W) self messages overrides t r,
    interp h (run self messages overrides) w = (t, r) ->
    (forall a, chat_calls t !! 0%nat = Some a ->
        ChatCreate.temperature a = PyFloat 0.0 /\
        ChatCreate.n a = 1 /\
        ChatCreate.tools a = Some build_search_function /\
        ChatCreate.tool_choice a = Some "auto" /\
        ChatCreate.max_tokens a = 500) /\
    (forall a, chat_calls t !! 1%nat = Some a ->
        ChatCreate.stream a = Some false /\
        ChatCreate.n a = 1 /\
        ChatCreate.max_tokens a = 1024 /\
        ChatCreate.temperature a
          = match overrides !! "temperature" with Some v => v | None => PyFloat 0.3 end) /\
    (length (chat_calls t) <= 2)%nat /\
    (forall response, r = inr response -> length (chat_calls t) = 2%nat).
Proof.
  intros W h w self messages overrides t r.
  run_cases h; intros [= <- <-]; reduce_prog.
  all: repeat match goal with |- _ /\ _ => split end.
  all: try (intros response [= ?]; reflexivity).
  all: try (cbn; lia).
  all: cbn; intros a [= <-]; repeat split; reflexivity.
Qed.

(** C9: the prompt builder is given the ceiling chat_token_limit - 500 in
    the query-generation phase and chat_token_limit - 1024 in the
    answer-generation phase; the completion call of a phase is sent the
    messages that phase's builder returned and caps its output at the
    phase's reserve, so ceiling plus cap is the token limit. *)
Theorem run_token_budget :
  forall (W : Type) (h : handler W) (w : W) self messages overrides t r,
    interp h (run self messages overrides) w = (t, r) ->
    (forall b, build_calls t !! 0%nat = Some b ->
        BuildMessages.max_tokens b = AdvancedRAGChat.chat_token_limit self - 500) /\
    (forall b, build_calls t !! 1%nat = Some b ->
        BuildMessages.max_tokens b = AdvancedRAGChat.chat_token_limit self - 1024) /\
    (forall c, chat_calls t !! 0%nat = Some c -> ChatCreate.max_tokens c = 500) /\
    (forall c, chat_calls t !! 1%nat = Some c -> ChatCreate.max_tokens c = 1024) /\
    (forall (i : nat) b c,
        build_calls t !! i = Some b -> chat_calls t !! i = Some c ->
        build_answers t !! i = Some (inr (ChatCreate.messages c)) /\
        BuildMessages.max_tokens b + ChatCreate.max_tokens c
          = AdvancedRAGChat.chat_token_limit self) /\
    (length (chat_calls t) <= length (build_calls t) <= 2)%nat /\
    (forall response, r = inr response ->
        length (build_calls t) = 2%nat /\ length (chat_calls t) = 2%nat).
Proof.
  intros W h w self messages overrides t r.
  run_cases h; intros [= <- <-]; reduce_prog.
  all: repeat match goal with |- _ /\ _ => split end.
  all: try (cbn; intros b [= <-]; reflexivity).
  all: try (intros response [= ?]; split; reflexivity).
  all: try (cbn; lia).
  all: intros [|[|i]] kb kc; cbn; rewrite ?lookup_nil; intros Hb Hc; try discriminate.
  all: injection Hb as <-; injection Hc as <-; cbn; split; [reflexivity | lia].
Qed.

Lemma deployment_set_configured self d :
  AdvancedRAGChat.chat_deployment self = Some d -> d <> EmptyString ->
  deployment_set self = Some d.
Proof.
  intros Hd Hne. unfold deployment_set. rewrite Hd.
  destruct (String.eqb_spec d EmptyString); congruence.
Qed.

Lemma deployment_set_unconfigured self :
  AdvancedRAGChat.chat_deployment self = None \/
  AdvancedRAGChat.chat_deployment self = Some EmptyString ->
  deployment_set self = None.
Proof. unfold deployment_set. intros [-> | ->]; reflexivity. Qed.

(** C8: with a deployment configured (a non-empty [chat_deployment]) every
    chat-completion call of a run names the deployment as its model, and
    the props of the first and fourth thought steps hold the base model
    name and the deployment; without one ([None] or the empty string) the
    calls name the base model and those props hold the base model name
    only.  The calls and the steps are there: on a conversation whose
    last content is a [str] the prompt builder is called, a
    chat-completion call follows each prompt the builder returned, and a
    run that returns a response made two such calls and has the four
    steps. *)
Theorem run_model_addressing :
  forall (W : Type) (h : handler W) (w : W) self messages overrides t r,
    interp h (run self messages overrides) w = (t, r) ->
    (forall d,
        AdvancedRAGChat.chat_deployment self = Some d -> d <> EmptyString ->
        (forall a, a ∈ chat_calls t -> ChatCreate.model a = d) /\
        (forall response, r = inr response ->
            exists first second query_prompt search_step search_results answer_prompt,
              chat_calls t = [first; second] /\
              ChatCreate.model first = d /\
              ChatCreate.model second = d /\
              RAGContext.thoughts (RetrievalResponse.context response)
                = [query_prompt; search_step; search_results; answer_prompt] /\
              ThoughtStep.props query_prompt
                = Some (<["deployment" := PropVal (PyStr d)]>
                         {["model" := PropVal (PyStr (AdvancedRAGChat.chat_model self))]}) /\
              ThoughtStep.props answer_prompt
                = Some (<["deployment" := PropVal (PyStr d)]>
                         {["model" := PropVal (PyStr (AdvancedRAGChat.chat_model self))]}))) /\
    (AdvancedRAGChat.chat_deployment self = None \/
     AdvancedRAGChat.chat_deployment self = Some EmptyString ->
        (forall a, a ∈ chat_calls t ->
            ChatCreate.model a = AdvancedRAGChat.chat_model self) /\
        (forall response, r = inr response ->
            exists first second query_prompt search_step search_results answer_prompt,
              chat_calls t = [first; second] /\
              ChatCreate.model first = AdvancedRAGChat.chat_model self /\
              ChatCreate.model second = AdvancedRAGChat.chat_model self /\
              RAGContext.thoughts (RetrievalResponse.context response)
                = [query_prompt; search_step; search_results; answer_prompt] /\
              ThoughtStep.props query_prompt
                = Some {["model" := PropVal (PyStr (AdvancedRAGChat.chat_model self))]} /\
              ThoughtStep.props answer_prompt
                = Some {["model" := PropVal (PyStr (AdvancedRAGChat.chat_model self))]})) /\
    (forall original_user_query,
        user_query messages = Some original_user_query ->
        exists b, build_calls t !! 0%nat = Some b) /\
    (forall query_messages,
        build_answers t !! 0%nat = Some (inr query_messages) ->
        exists a, chat_calls t !! 0%nat = Some a /\
                  ChatCreate.messages a = query_messages) /\
    (forall contextual_messages,
        build_answers t !! 1%nat = Some (inr contextual_messages) ->
        exists a, chat_calls t !! 1%nat = Some a /\
                  ChatCreate.messages a = contextual_messages).
Proof.
  intros W h w self messages overrides t r.
  unfold user_query.
  run_cases h; intros [= <- <-]; reduce_prog.
  all: split; [|split; [|split; [|split]]].
  all: lazymatch goal with
       | |- forall q, _ = Some q -> exists b, _ =>
           cbn; intros q Hq; try discriminate Hq; eexists; reflexivity
       | |- forall d, _ = Some d -> _ =>
           intros dep Hdep Hne; rewrite ?(deployment_set_configured _ _ Hdep Hne)
       | |- _ \/ _ -> _ =>
           intros Hnone; rewrite ?(deployment_set_unconfigured _ Hnone)
       | |- _ =>
           cbn; intros built Hbuilt; try discriminate Hbuilt;
           injection Hbuilt as <-; eexists; split; reflexivity
       end.
  all: split;
    [ intros ka Hka; repeat (apply elem_of_cons in Hka as [-> | Hka]; [reflexivity|]);
      inversion Hka
    | intros response Hr; try discriminate Hr; injection Hr as <-;
      do 6 eexists; repeat split; reflexivity ].
Qed.

(** *** The dict comprehension *)

Lemma py_dict_comp_snoc {K V : Type} `{Countable K} (kvs : list (K * V)) (kv : K * V) :
  py_dict_comp (kvs ++ [kv]) = <[kv.1 := kv.2]> (py_dict_comp kvs).
Proof. unfold py_dict_comp. now rewrite foldl_app. Qed.

Lemma data_points_snoc (results : list Item.t) (item : Item.t) :
  py_dict_comp (map (fun item => (Item.id item, Item.to_dict item)) (results ++ [item]))
  = <[Item.id item := Item.to_dict item]>
      (py_dict_comp (map (fun item => (Item.id item, Item.to_dict item)) results)).
Proof. rewrite map_app. cbn [map]. now rewrite py_dict_comp_snoc. Qed.

Lemma data_points_dom (results : list Item.t) :
  dom (py_dict_comp (map (fun item => (Item.id item, Item.to_dict item)) results))
  = list_to_set (Item.id <$> results).
Proof.
  induction results as [|item results IH] using rev_ind.
  - unfold py_dict_comp. cbn. apply dom_empty_L.
  - rewrite data_points_snoc, dom_insert_L, IH, fmap_app, list_to_set_app_L.
    cbn. set_solver.
Qed.

Lemma data_points_lookup (results : list Item.t) (k : Z) :
  py_dict_comp (map (fun item => (Item.id item, Item.to_dict item)) results) !! k
  = Item.to_dict <$> last (filter (fun item => Item.id item = k) results).
Proof.
  induction results as [|item results IH] using rev_ind.
  - unfold py_dict_comp. cbn. apply lookup_empty.
  - rewrite data_points_snoc, filter_app, lookup_insert.
    destruct (decide (Item.id item = k)) as [Heq|Hne].
    + rewrite filter_cons_True, filter_nil by exact Heq.
      now rewrite last_snoc.
    + rewrite filter_cons_False, filter_nil, app_nil_r by exact Hne.
      exact IH.
Qed.

Lemma data_points_lookup_distinct (results : list Item.t) (item : Item.t) :
  NoDup (Item.id <$> results) -> item ∈ results ->
  py_dict_comp (map (fun item => (Item.id item, Item.to_dict item)) results) !! Item.id item
  = Some (Item.to_dict item).
Proof.
  induction results as [|item' results IH] using rev_ind; intros Hnd Hin.
  - inversion Hin.
  - rewrite data_points_snoc, lookup_insert.
    rewrite fmap_app in Hnd. apply NoDup_app in Hnd as (Hnd & Hfresh & _).
    apply elem_of_app in Hin as [Hin | Hin].
    + destruct (decide (Item.id item' = Item.id item)) as [Heq|Hne]; [|now apply IH].
      exfalso. apply (Hfresh (Item.id item)).
      * apply list_elem_of_fmap. eauto.
      * rewrite <- Heq. cbn. apply list_elem_of_singleton. reflexivity.
    + apply list_elem_of_singleton in Hin as ->.
      now rewrite decide_True.
Qed.

Lemma data_points_size_distinct (results : list Item.t) :
  NoDup (Item.id <$> results) ->
  size (py_dict_comp (map (fun item => (Item.id item, Item.to_dict item)) results))
  = length results.
Proof.
  induction results as [|item results IH] using rev_ind; intros Hnd.
  - unfold py_dict_comp. cbn. apply map_size_empty.
  - rewrite data_points_snoc, length_app. cbn [length].
    rewrite fmap_app in Hnd. apply NoDup_app in Hnd as (Hnd & Hfresh & _).
    rewrite map_size_insert_None, IH by
      (try exact Hnd; apply not_elem_of_dom; rewrite data_points_dom;
       intros Hin%elem_of_list_to_set; apply (Hfresh _ Hin);
       cbn; apply list_elem_of_singleton; reflexivity).
    lia.
Qed.

(** C3, as the code has it: in a run that returns a response, the keys of
    [data_points] are exactly the ids of the rows the searcher returned,
    and a key maps to the dict form of the last returned row with that id;
    when the ids of the rows are pairwise distinct, every row's id maps to
    that row's dict form and there is one entry per row. *)
Theorem run_data_points :
  forall (W : Type) (h : handler W) (w : W) self messages overrides t r response,
    interp h (run self messages overrides) w = (t, r) ->
    r = inr response ->
    exists results,
      search_answers t = [inr results] /\
      dom (RAGContext.data_points (RetrievalResponse.context response))
        = list_to_set (Item.id <$> results) /\
      (forall k,
          RAGContext.data_points (RetrievalResponse.context response) !! k
          = Item.to_dict <$> last (filter (fun item => Item.id item = k) results)) /\
      (NoDup (Item.id <$> results) ->
          (forall item, item ∈ results ->
              RAGContext.data_points (RetrievalResponse.context response) !! Item.id item
              = Some (Item.to_dict item)) /\
          size (RAGContext.data_points (RetrievalResponse.context response))
          = length results).
Proof.
  intros W h w self messages overrides t r response.
  run_cases h; intros [= <- <-] Hr; try discriminate Hr.
  injection Hr as <-. reduce_prog. cbn [RAGContext.data_points RetrievalResponse.context].
  eexists. split; [reflexivity|].
  split; [apply data_points_dom|].
  split; [apply data_points_lookup|].
  intros Hnd. split.
  - intros item Hin. now apply data_points_lookup_distinct.
  - now apply data_points_size_distinct.
Qed.

(** C4: in a run that returns a response, [thoughts] has four steps, in
    the order query-generation prompt, search invocation, search results,
    answer-generation prompt, whatever the overrides and the rows found.
    The second step describes the query text the searcher was called with
    and its props are the [top], the two mode flags and the filters of that
    call; the other steps describe what the two prompt builders and the
    searcher returned. *)
Theorem run_thought_steps :
  forall (W : Type) (h : handler W) (w : W) self messages overrides t r response,
    interp h (run self messages overrides) w = (t, r) ->
    r = inr response ->
    exists query_prompt search_step search_results answer_prompt
           a query_messages results contextual_messages,
      RAGContext.thoughts (RetrievalResponse.context response)
        = [query_prompt; search_step; search_results; answer_prompt] /\
      ThoughtStep.title query_prompt = "Prompt to generate search arguments" /\
      ThoughtStep.title search_step = "Search using generated search arguments" /\
      ThoughtStep.title search_results = "Search results" /\
      ThoughtStep.title answer_prompt = "Prompt to generate answer" /\
      search_calls t = [a] /\
      ThoughtStep.description search_step = DescStr (Search.query_text a) /\
      ThoughtStep.props search_step
        = Some (<["filters" := PropFilters (Search.filters a)]>
               (<["text_search" := PropVal (PyBool (Search.enable_text_search a))]>
               (<["vector_search" := PropVal (PyBool (Search.enable_vector_search a))]>
               {["top" := PropVal (Search.top a)]}))) /\
      build_answers t = [inr query_messages; inr contextual_messages] /\
      search_answers t = [inr results] /\
      ThoughtStep.description query_prompt = DescStrList (map py_str query_messages) /\
      ThoughtStep.description search_results = DescDictList (map Item.to_dict results) /\
      ThoughtStep.description answer_prompt
        = DescStrList (map py_str contextual_messages).
Proof.
  intros W h w self messages overrides t r response.
  run_cases h; intros [= <- <-] Hr; try discriminate Hr.
  injection Hr as <-. reduce_prog.
  do 8 eexists. repeat split; reflexivity.
Qed.

(** C7, as the code has it: the user content handed to the second prompt
    builder is the original query, then "\n\nSources:\n", then the rows the
    searcher returned, each rendered as "[id]:<renderable text>\n\n" with
    no space after the colon, joined in result order with one "\n" between
    consecutive renderings. *)
Theorem run_answer_user_content :
  forall (W : Type) (h : handler W) (w : W) self messages overrides t r b,
    interp h (run self messages overrides) w = (t, r) ->
    build_calls t !! 1%nat = Some b ->
    exists original_user_query results,
      user_query messages = Some original_user_query /\
      search_answers t = [inr results] /\
      BuildMessages.new_user_content b
      = original_user_query +:+ (nl +:+ nl +:+ "Sources:" +:+ nl)
        +:+ py_join nl (map render_item results).
Proof.
  intros W h w self messages overrides t r b.
  unfold user_query.
  run_cases h; intros [= <- <-]; reduce_prog; cbn; intros Hb; try discriminate Hb.
  all: injection Hb as <-; do 2 eexists; repeat split; reflexivity.
Qed.

End RunProperties.

(** ** Properties of the extraction *)

Section ExtractProperties.

Variable parse_arguments :
  string -> QueryRewriter.ToolArgumentParseError + QueryRewriter.SearchArguments.

Abbreviation extract := (QueryRewriter.extract_search_arguments parse_arguments).

(** C6: for a search tool invocation whose payload parses, the extracted
    query is the parsed query and the filters are the filter arguments
    one for one, in order, with the same field, comparator and value; with
    no such invocation, or a payload that does not parse, the result is
    the original query and no filter.  The extraction returns in every
    case: the parse error does not leave it. *)
Theorem extract_search_arguments_translation_and_fallback :
  forall original_user_query chat_completion,
    (forall tool args,
        QueryRewriter.search_invocation chat_completion = Some tool ->
        parse_arguments (ToolCall.arguments tool) = inr args ->
        exists filters,
          extract original_user_query chat_completion
            = inr (QueryRewriter.query args, filters) /\
          Forall2 (fun arg f =>
                     RetrievalFilter.field f = QueryRewriter.field arg /\
                     RetrievalFilter.comparator f = QueryRewriter.comparator arg /\
                     RetrievalFilter.value f = QueryRewriter.value arg)
                  (QueryRewriter.filter args) filters) /\
    (QueryRewriter.search_invocation chat_completion = None ->
        extract original_user_query chat_completion = inr (original_user_query, [])) /\
    (forall tool err,
        QueryRewriter.search_invocation chat_completion = Some tool ->
        parse_arguments (ToolCall.arguments tool) = inl err ->
        extract original_user_query chat_completion = inr (original_user_query, [])) /\
    (exists query_text filters,
        extract original_user_query chat_completion = inr (query_text, filters)).
Proof.
  intros original_user_query chat_completion.
  unfold QueryRewriter.extract_search_arguments.
  repeat split.
  - intros tool args -> ->. eexists. split; [reflexivity|].
    induction (QueryRewriter.filter args) as [|arg rest IH]; cbn; constructor; auto.
  - now intros ->.
  - intros tool [payload] -> ->. reflexivity.
  - destruct (QueryRewriter.search_invocation chat_completion) as [tool|]; [|eauto].
    destruct (parse_arguments (ToolCall.arguments tool)) as [[payload]|args]; eauto.
Qed.

End ExtractProperties.

(** ** Further behaviour of [run] *)

Section RunBehaviour.

Variable build_search_function : list pyval.
Variable extract_search_arguments :
  string -> ChatCompletion.t -> exn + (string * list RetrievalFilter.t).
Variable py_str : ChatCompletionMessageParam -> string.

Abbreviation run := (run build_search_function extract_search_arguments py_str).

(** X1: the calls of a run are made in the order prompt builder, chat
    completion, searcher, prompt builder, chat completion; a run stops
    somewhere along this sequence and never makes a sixth call, and a run
    that returns a response made all five. *)
Theorem run_call_order :
  forall (W : Type) (h : handler W) (w : W) self messages overrides t r,
    interp h (run self messages overrides) w = (t, r) ->
    event_kind <$> t `prefix_of` [BuildKind; ChatKind; SearchKind; BuildKind; ChatKind] /\
    (forall response, r = inr response ->
        event_kind <$> t = [BuildKind; ChatKind; SearchKind; BuildKind; ChatKind]).
Proof.
  intros W h w self messages overrides t r.
  run_cases h; intros [= <- <-]; cbn.
  all: split; [eexists; reflexivity | intros response [= ?]; try reflexivity].
Qed.

(** X2: every way [run] can fail.  A run that raises [e] either rejected
    its input before any call ([IndexError] on the empty conversation,
    [KeyError] on a last message without content, the [ValueError] of the
    check on a content that is not a [str]), or passes on [e] from the
    collaborator called last, or passes on [e] from the extraction right
    after the first completion, or raises [IndexError] after all five
    calls because the second completion has no choice. *)
Theorem run_failure_cases :
  forall (W : Type) (h : handler W) (w : W) self messages overrides t r e,
    interp h (run self messages overrides) w = (t, r) ->
    r = inl e ->
    (t = [] /\ messages = [] /\ e = IndexError) \/
    (t = [] /\ e = KeyError "content" /\
       exists last_message,
         last messages = Some last_message /\ last_message !! "content" = None) \/
    (t = [] /\ e = ValueError "The most recent message content must be a string." /\
       exists last_message content,
         last messages = Some last_message /\
         last_message !! "content" = Some content /\
         isinstance_str content = false) \/
    (exists ev, last t = Some ev /\ event_raised ev = Some e) \/
    (event_kind <$> t = [BuildKind; ChatKind] /\
       exists original_user_query completion,
         user_query messages = Some original_user_query /\
         chat_answers t = [inr completion] /\
         extract_search_arguments original_user_query completion = inl e) \/
    (event_kind <$> t = [BuildKind; ChatKind; SearchKind; BuildKind; ChatKind] /\
       e = IndexError /\
       exists completion,
         chat_answers t !! 1%nat = Some (inr completion) /\
         ChatCompletion.choices completion = []).
Proof.
  intros W h w self messages overrides.
  unfold user_query.
  run_cases h; intros ? ? exc [= <- <-] Hr; try discriminate Hr; injection Hr as <-.
  all: first
    [ left; repeat split; now apply last_None
    | right; left; repeat split; eexists; split; [reflexivity | assumption]
    | right; right; left; repeat split; do 2 eexists;
      split; [reflexivity | split; [eassumption | reflexivity]]
    | right; right; right; left; eexists; split; reflexivity
    | right; right; right; right; left; split; [reflexivity|];
      do 2 eexists; split; [reflexivity | split; [reflexivity | assumption]]
    | right; right; right; right; right; split; [reflexivity|]; split; [reflexivity|];
      eexists; split; [reflexivity | assumption] ].
Qed.

(** X4: with a conversation [past ++ [last_message]], both prompt-builder
    calls receive exactly [past] as history, whatever the earlier messages
    contain, together with the base model name (not the deployment) and
    [fallback_to_default=True]; the first call's new user content is the
    content of [last_message]. *)
Theorem run_prompt_builder_inputs :
  forall (W : Type) (h : handler W) (w : W) self past last_message overrides t r,
    interp h (run self (past ++ [last_message]) overrides) w = (t, r) ->
    (forall b, b ∈ build_calls t ->
        BuildMessages.past_messages b = past /\
        BuildMessages.model b = AdvancedRAGChat.chat_model self /\
        BuildMessages.fallback_to_default b = true) /\
    (forall b, build_calls t !! 0%nat = Some b ->
        last_message !! "content" = Some (PyStr (BuildMessages.new_user_content b))).
Proof.
  intros W h w self past last_message overrides t r.
  unfold run, py_index_last. rewrite last_snoc, removelast_last.
  run_cases h; intros [= <- <-]; cbn.
  all: split;
    [ intros kb Hkb;
      repeat (apply elem_of_cons in Hkb as [-> | Hkb]; [repeat split; reflexivity|]);
      inversion Hkb
    | intros kb Hkb; try discriminate Hkb; injection Hkb as <-; reflexivity ].
Qed.

(** X5: the system prompt of the query-generation phase is the query
    template, whatever the overrides; that of the answer-generation phase
    is the [prompt_template] override when it is truthy, and the answer
    template when the override is missing or falsy ([None], the empty
    string). *)
Theorem run_system_prompts :
  forall (W : Type) (h : handler W) (w : W) self messages overrides t r,
    interp h (run self messages overrides) w = (t, r) ->
    (forall b, build_calls t !! 0%nat = Some b ->
        BuildMessages.system_prompt b
        = PyStr (AdvancedRAGChat.query_prompt_template self)) /\
    (forall b, build_calls t !! 1%nat = Some b ->
        (forall v, overrides !! "prompt_template" = Some v -> py_truthy v = true ->
            BuildMessages.system_prompt b = v) /\
        (forall v, overrides !! "prompt_template" = Some v -> py_truthy v = false ->
            BuildMessages.system_prompt b
            = PyStr (AdvancedRAGChat.answer_prompt_template self)) /\
        (overrides !! "prompt_template" = None ->
            BuildMessages.system_prompt b
            = PyStr (AdvancedRAGChat.answer_prompt_template self))).
Proof.
  intros W h w self messages overrides t r.
  run_cases h; intros [= <- <-]; cbn.
  all: split; intros kb Hkb; try discriminate Hkb; injection Hkb as <-;
    try reflexivity.
  all: cbn; unfold py_or, py_get; repeat split.
  all: try (intros v -> Hv; cbn; now rewrite Hv).
  all: now intros ->.
Qed.

(** X6: the answer message of a response is read off the first choice of
    the second completion only: its role is that choice's role and its
    content is that choice's content, or the four letters None when the
    choice has no content. *)
Theorem run_answer_message :
  forall (W : Type) (h : handler W) (w : W) self messages overrides t r response,
    interp h (run self messages overrides) w = (t, r) ->
    r = inr response ->
    exists completion first_choice others,
      chat_answers t !! 1%nat = Some (inr completion) /\
      ChatCompletion.choices completion = first_choice :: others /\
      Message.role (RetrievalResponse.message response)
        = ChatCompletionMessage.role (Choice.message first_choice) /\
      Message.content (RetrievalResponse.message response)
        = match ChatCompletionMessage.content (Choice.message first_choice) with
          | Some text => text
          | None => "None"
          end.
Proof.
  intros W h w self messages overrides t r response.
  run_cases h; intros [= <- <-] Hr; try discriminate Hr.
  injection Hr as <-. cbn.
  do 3 eexists. split; [reflexivity|]. split; [eassumption|]. split; reflexivity.
Qed.

(** X7: when the second completion comes back without choices, the run
    raises [IndexError] after all five calls were made; no response is
    built. *)
Theorem run_empty_choices_index_error :
  forall (W : Type) (h : handler W) (w : W) self messages overrides t r completion,
    interp h (run self messages overrides) w = (t, r) ->
    chat_answers t !! 1%nat = Some (inr completion) ->
    ChatCompletion.choices completion = [] ->
    r = inl IndexError /\ length t = 5%nat.
Proof.
  intros W h w self messages overrides t r completion.
  run_cases h; intros [= <- <-]; cbn; intros Hc Hnone; try discriminate Hc.
  all: injection Hc as <-; try congruence.
  split; reflexivity.
Qed.

(** X8: an exception raised by the extraction of the search arguments
    ends the run with that exception before any retrieval: the log holds
    the first prompt-builder call and the first completion, nothing else. *)
Theorem run_extraction_error_propagates :
  forall (W : Type) (h : handler W) (w : W) self messages overrides t r
         original_user_query completion e,
    interp h (run self messages overrides) w = (t, r) ->
    user_query messages = Some original_user_query ->
    chat_answers t !! 0%nat = Some (inr completion) ->
    extract_search_arguments original_user_query completion = inl e ->
    r = inl e /\ search_calls t = [] /\
    event_kind <$> t = [BuildKind; ChatKind].
Proof.
  intros W h w self messages overrides t r original_user_query completion exc.
  unfold user_query.
  run_cases h; intros [= <- <-]; cbn; intros Hq Hc He; try discriminate.
  all: injection Hq as <-; injection Hc as <-; try congruence.
  rewrite Hextract in He. injection He as <-. repeat split.
Qed.

(** X9: the overrides do not reach the query-generation phase: against
    the same collaborators, two runs on one conversation with different
    overrides make the same first prompt-builder call and the same first
    completion call, with the same answers. *)
Theorem run_query_phase_ignores_overrides :
  forall (W : Type) (h : handler W) (w : W) self messages overrides1 overrides2,
    take 2 (trace_of h (run self messages overrides1) w)
    = take 2 (trace_of h (run self messages overrides2) w).
Proof.
  intros W h w self messages overrides1 overrides2.
  run_cases h; reflexivity.
Qed.

(** X10: a retrieval that finds nothing does not end the run: the second
    prompt builder is still called, with the original query followed by
    the bare sources header as user content, and a response built from
    such a run has no data points. *)
Theorem run_no_results :
  forall (W : Type) (h : handler W) (w : W) self messages overrides t r,
    interp h (run self messages overrides) w = (t, r) ->
    search_answers t = [inr []] ->
    (exists b original_user_query,
        build_calls t !! 1%nat = Some b /\
        user_query messages = Some original_user_query /\
        BuildMessages.new_user_content b
        = original_user_query +:+ (nl +:+ nl +:+ "Sources:" +:+ nl)) /\
    (forall response, r = inr response ->
        RAGContext.data_points (RetrievalResponse.context response) = ∅).
Proof.
  intros W h w self messages overrides t r.
  unfold user_query.
  run_cases h; intros [= <- <-]; cbn; intros Hs; try discriminate Hs.
  all: injection Hs as ->.
  all: split; [| intros response [= <-]; reflexivity].
  all: do 2 eexists; split; [reflexivity|]; split; [reflexivity|].
  all: cbn [BuildMessages.new_user_content map]; f_equal; reflexivity.
Qed.

Lemma data_points_size_le (results : list Item.t) :
  (size (py_dict_comp (map (fun item => (Item.id item, Item.to_dict item)) results))
   <= length results)%nat.
Proof.
  induction results as [|item results IH] using rev_ind.
  - unfold py_dict_comp. cbn. rewrite map_size_empty. lia.
  - rewrite data_points_snoc, length_app, map_size_insert. cbn [length].
    destruct (_ !! Item.id item); cbn; lia.
Qed.

Lemma data_points_size_full (results : list Item.t) :
  size (py_dict_comp (map (fun item => (Item.id item, Item.to_dict item)) results))
  = length results ->
  NoDup (Item.id <$> results).
Proof.
  induction results as [|item results IH] using rev_ind; intros Hsize.
  - constructor.
  - rewrite data_points_snoc, length_app, map_size_insert in Hsize. cbn [length] in Hsize.
    pose proof (data_points_size_le results) as Hle.
    destruct (_ !! Item.id item) eqn:Hlookup; cbn in Hsize; [lia|].
    rewrite fmap_app. apply NoDup_app. split; [apply IH; lia|]. split.
    + intros k Hk Hk'. cbn in Hk'. apply list_elem_of_singleton in Hk' as ->.
      apply not_elem_of_dom in Hlookup. apply Hlookup.
      rewrite data_points_dom. now apply elem_of_list_to_set.
    + cbn. apply NoDup_singleton.
Qed.

(** X11: a response never has more data points than rows were retrieved,
    and it has as many exactly when no two retrieved rows share an id. *)
Theorem run_data_points_count :
  forall (W : Type) (h : handler W) (w : W) self messages overrides t r response results,
    interp h (run self messages overrides) w = (t, r) ->
    r = inr response ->
    search_answers t = [inr results] ->
    (size (RAGContext.data_points (RetrievalResponse.context response))
     <= length results)%nat /\
    (size (RAGContext.data_points (RetrievalResponse.context response)) = length results
     <-> NoDup (Item.id <$> results)).
Proof.
  intros W h w self messages overrides t r response results.
  run_cases h; intros [= <- <-] Hr; try discriminate Hr.
  injection Hr as <-. cbn. intros [= <-].
  split; [apply data_points_size_le|].
  split; [apply data_points_size_full | apply data_points_size_distinct].
Qed.

End RunBehaviour.

(** ** Construction followed by a run *)

Section InitProperties.

Variable get_token_limit : string -> bool -> exn + Z.
Variable read_text : string -> exn + string.
Variable build_search_function : list pyval.
Variable extract_search_arguments :
  string -> ChatCompletion.t -> exn + (string * list RetrievalFilter.t).
Variable py_str : ChatCompletionMessageParam -> string.

(** X12: on an orchestrator that [__init__] built, both prompt-builder
    calls of a run name the base model, their ceilings are the limit
    [get_token_limit] gave for the base model with default_to_minimum=True,
    less 500 and 1024, and their system prompts are the contents of
    prompts/query.txt and, without a [prompt_template] override, of
    prompts/answer.txt. *)
Theorem init_then_run :
  forall chat_model chat_deployment self
         (W : Type) (h : handler W) (w : W) messages overrides t r,
    init get_token_limit read_text chat_model chat_deployment = inr self ->
    interp h (run build_search_function extract_search_arguments py_str
                self messages overrides) w = (t, r) ->
    exists limit query_template answer_template,
      get_token_limit chat_model true = inr limit /\
      read_text "prompts/query.txt" = inr query_template /\
      read_text "prompts/answer.txt" = inr answer_template /\
      (forall b, build_calls t !! 0%nat = Some b ->
          BuildMessages.model b = chat_model /\
          BuildMessages.max_tokens b = limit - 500 /\
          BuildMessages.system_prompt b = PyStr query_template) /\
      (forall b, build_calls t !! 1%nat = Some b ->
          BuildMessages.model b = chat_model /\
          BuildMessages.max_tokens b = limit - 1024 /\
          (overrides !! "prompt_template" = None ->
             BuildMessages.system_prompt b = PyStr answer_template)).
Proof.
  intros chat_model chat_deployment self W h w messages overrides t r Hinit Hrun.
  unfold init in Hinit.
  destruct (get_token_limit chat_model true) as [?|limit]; [discriminate Hinit|].
  destruct (read_text "prompts/query.txt") as [?|query_template]; [discriminate Hinit|].
  destruct (read_text "prompts/answer.txt") as [?|answer_template]; [discriminate Hinit|].
  injection Hinit as <-.
  exists limit, query_template, answer_template.
  do 3 (split; [reflexivity|]).
  revert t r Hrun. run_cases h; intros ? ? [= <- <-]; cbn.
  all: split; intros kb Hkb; try discriminate Hkb; injection Hkb as <-;
    repeat split; try reflexivity.
  all: intros Hnone; cbn; unfold py_or, py_get; now rewrite Hnone.
Qed.

End InitProperties.

(** ** The theorems on concrete runs *)

Lemma run_rejects_non_string_content_witness :
  outcome_of (Demo.respond [])
    (run Demo.tools Demo.extract Demo.message_str Demo.self Demo.parts_messages ∅) tt
  = inl (ValueError "The most recent message content must be a string.") /\
  trace_of (Demo.respond [])
    (run Demo.tools Demo.extract Demo.message_str Demo.self Demo.parts_messages ∅) tt
  = [].
Proof.
  destruct (run_rejects_non_string_content Demo.tools Demo.extract Demo.message_str
              unit (Demo.respond []) tt Demo.self Demo.parts_messages ∅
              {[ "role" := PyStr "user";
                 "content" := PyList [PyDict [("type", PyStr "text"); ("text", PyStr "Hi")]] ]}
              (PyList [PyDict [("type", PyStr "text"); ("text", PyStr "Hi")]])
              eq_refl eq_refl eq_refl) as (Hout & Htrace & _).
  exact (conj Hout Htrace).
Defined.

Lemma run_search_invocation_witness :
  exists a,
    search_calls (Demo.run_demo Demo.self [Demo.tent] Demo.text_top1).1 = [a] /\
    Search.query_text a = "return policy" /\
    Search.top a = PyInt 1 /\
    Search.enable_text_search a = true /\
    Search.enable_vector_search a = false.
Proof.
  destruct (run_search_invocation Demo.tools Demo.extract Demo.message_str
              unit (Demo.respond [Demo.tent]) tt Demo.self Demo.messages Demo.text_top1
              _ _ (surjective_pairing (Demo.run_demo Demo.self [Demo.tent] Demo.text_top1)))
    as (_ & _ & Hcall & Hargs).
  destruct (Hcall "What is the return policy?" Demo.search_completion "return policy"
              [{| RetrievalFilter.field := "price";
                  RetrievalFilter.comparator := "<";
                  RetrievalFilter.value := PyInt 30 |}]
              eq_refl eq_refl eq_refl) as (a & Ha & Hquery & _).
  assert (Hin : a ∈ search_calls (Demo.run_demo Demo.self [Demo.tent] Demo.text_top1).1)
    by (rewrite Ha; apply list_elem_of_singleton; reflexivity).
  destruct (Hargs a Hin) as (_ & Htop & Hvector & Htext).
  exists a. split; [exact Ha|]. split; [exact Hquery|]. split; [exact Htop|]. split.
  - apply Htext. right. right. left. reflexivity.
  - destruct (Search.enable_vector_search a); [|reflexivity].
    destruct Hvector as [Hvector _].
    destruct (Hvector eq_refl) as [H|[H|[H|H]]]; vm_compute in H; discriminate H.
Defined.

Lemma run_chat_completion_parameters_witness :
  exists a1 a2,
    chat_calls (Demo.run_demo Demo.self [Demo.tent] ∅).1 = [a1; a2] /\
    ChatCreate.temperature a1 = PyFloat 0.0 /\
    ChatCreate.tools a1 = Some Demo.tools /\
    ChatCreate.max_tokens a1 = 500 /\
    ChatCreate.stream a2 = Some false /\
    ChatCreate.temperature a2 = PyFloat 0.3 /\
    ChatCreate.max_tokens a2 = 1024.
Proof.
  destruct (run_chat_completion_parameters Demo.tools Demo.extract Demo.message_str
              unit (Demo.respond [Demo.tent]) tt Demo.self Demo.messages ∅
              _ _ (surjective_pairing (Demo.run_demo Demo.self [Demo.tent] ∅)))
    as (Hfirst & Hsecond & _ & _).
  destruct (chat_calls (Demo.run_demo Demo.self [Demo.tent] ∅).1)
    as [|a1 [|a2 [|a3 rest]]] eqn:Hcalls; try (vm_compute in Hcalls; discriminate Hcalls).
  destruct (Hfirst a1 eq_refl) as (Htemp & _ & Htools & _ & Hcap).
  destruct (Hsecond a2 eq_refl) as (Hstream & _ & Hcap2 & Htemp2).
  exists a1, a2. repeat split; assumption.
Defined.

Lemma run_token_budget_witness :
  exists b1 b2 c1 c2,
    build_calls (Demo.run_demo Demo.self [Demo.tent] ∅).1 = [b1; b2] /\
    chat_calls (Demo.run_demo Demo.self [Demo.tent] ∅).1 = [c1; c2] /\
    BuildMessages.max_tokens b1 = 127500 /\
    BuildMessages.max_tokens b2 = 126976 /\
    BuildMessages.max_tokens b1 + ChatCreate.max_tokens c1 = 128000 /\
    BuildMessages.max_tokens b2 + ChatCreate.max_tokens c2 = 128000.
Proof.
  destruct (run_token_budget Demo.tools Demo.extract Demo.message_str
              unit (Demo.respond [Demo.tent]) tt Demo.self Demo.messages ∅
              _ _ (surjective_pairing (Demo.run_demo Demo.self [Demo.tent] ∅)))
    as (Hb1 & Hb2 & _ & _ & Hsum & _ & _).
  destruct (build_calls (Demo.run_demo Demo.self [Demo.tent] ∅).1)
    as [|b1 [|b2 [|b3 rest]]] eqn:Hbuilds; try (vm_compute in Hbuilds; discriminate Hbuilds).
  destruct (chat_calls (Demo.run_demo Demo.self [Demo.tent] ∅).1)
    as [|c1 [|c2 [|c3 rest]]] eqn:Hchats; try (vm_compute in Hchats; discriminate Hchats).
  exists b1, b2, c1, c2. repeat split.
  - exact (Hb1 b1 eq_refl).
  - exact (Hb2 b2 eq_refl).
  - exact (proj2 (Hsum 0%nat b1 c1 eq_refl eq_refl)).
  - exact (proj2 (Hsum 1%nat b2 c2 eq_refl eq_refl)).
Defined.

Lemma run_model_addressing_witness :
  (exists response first second query_prompt search_step search_results answer_prompt,
     (Demo.run_demo Demo.self [Demo.tent] ∅).2 = inr response /\
     chat_calls (Demo.run_demo Demo.self [Demo.tent] ∅).1 = [first; second] /\
     ChatCreate.model first = "chat-eastus" /\
     ChatCreate.model second = "chat-eastus" /\
     RAGContext.thoughts (RetrievalResponse.context response)
       = [query_prompt; search_step; search_results; answer_prompt] /\
     ThoughtStep.props query_prompt
       = Some (<["deployment" := PropVal (PyStr "chat-eastus")]>
                {["model" := PropVal (PyStr "gpt-4o-mini")]}) /\
     ThoughtStep.props answer_prompt
       = Some (<["deployment" := PropVal (PyStr "chat-eastus")]>
                {["model" := PropVal (PyStr "gpt-4o-mini")]})) /\
  (exists response first second query_prompt search_step search_results answer_prompt,
     (Demo.run_demo Demo.self_no_deployment [Demo.tent] ∅).2 = inr response /\
     chat_calls (Demo.run_demo Demo.self_no_deployment [Demo.tent] ∅).1 = [first; second] /\
     ChatCreate.model first = "gpt-4o-mini" /\
     ChatCreate.model second = "gpt-4o-mini" /\
     RAGContext.thoughts (RetrievalResponse.context response)
       = [query_prompt; search_step; search_results; answer_prompt] /\
     ThoughtStep.props query_prompt = Some {["model" := PropVal (PyStr "gpt-4o-mini")]} /\
     ThoughtStep.props answer_prompt = Some {["model" := PropVal (PyStr "gpt-4o-mini")]}).
Proof.
  split.
  - destruct (Demo.run_demo Demo.self [Demo.tent] ∅).2
      as [e|response] eqn:Hout; [vm_compute in Hout; discriminate Hout|].
    destruct (run_model_addressing Demo.tools Demo.extract Demo.message_str
                unit (Demo.respond [Demo.tent]) tt Demo.self Demo.messages ∅
                _ _ (surjective_pairing (Demo.run_demo Demo.self [Demo.tent] ∅)))
      as (Hset & _).
    destruct (Hset "chat-eastus" eq_refl ltac:(discriminate)) as (_ & Hsteps).
    destruct (Hsteps response Hout)
      as (first & second & s0 & s1 & s2 & s3 & Hcalls & Hm1 & Hm2 & Hth & Hp0 & Hp3).
    exists response, first, second, s0, s1, s2, s3.
    split; [reflexivity|]. split; [exact Hcalls|]. split; [exact Hm1|].
    split; [exact Hm2|]. split; [exact Hth|]. split; [exact Hp0 | exact Hp3].
  - destruct (Demo.run_demo Demo.self_no_deployment [Demo.tent] ∅).2
      as [e|response] eqn:Hout; [vm_compute in Hout; discriminate Hout|].
    destruct (run_model_addressing Demo.tools Demo.extract Demo.message_str
                unit (Demo.respond [Demo.tent]) tt Demo.self_no_deployment Demo.messages ∅
                _ _ (surjective_pairing
                       (Demo.run_demo Demo.self_no_deployment [Demo.tent] ∅)))
      as (_ & Hunset & _).
    destruct (Hunset (or_introl eq_refl)) as (_ & Hsteps).
    destruct (Hsteps response Hout)
      as (first & second & s0 & s1 & s2 & s3 & Hcalls & Hm1 & Hm2 & Hth & Hp0 & Hp3).
    exists response, first, second, s0, s1, s2, s3.
    split; [reflexivity|]. split; [exact Hcalls|]. split; [exact Hm1|].
    split; [exact Hm2|]. split; [exact Hth|]. split; [exact Hp0 | exact Hp3].
Defined.

Lemma run_data_points_witness :
  exists response,
    (Demo.run_demo Demo.self [Demo.tent; Demo.stove] ∅).2 = inr response /\
    dom (RAGContext.data_points (RetrievalResponse.context response)) = {[1; 2]} /\
    RAGContext.data_points (RetrievalResponse.context response) !! 2
      = Some (Item.to_dict Demo.stove) /\
    size (RAGContext.data_points (RetrievalResponse.context response)) = 2%nat.
Proof.
  destruct (Demo.run_demo Demo.self [Demo.tent; Demo.stove] ∅).2
    as [e|response] eqn:Hout; [vm_compute in Hout; discriminate Hout|].
  destruct (run_data_points Demo.tools Demo.extract Demo.message_str
              unit (Demo.respond [Demo.tent; Demo.stove]) tt Demo.self Demo.messages ∅
              _ _ response
              (surjective_pairing (Demo.run_demo Demo.self [Demo.tent; Demo.stove] ∅))
              Hout)
    as (results & Hresults & Hdom & _ & Hdistinct).
  assert (Hrows : results = [Demo.tent; Demo.stove])
    by (vm_compute in Hresults; injection Hresults as <-; reflexivity).
  subst results.
  destruct Hdistinct as (Hlookup & Hsize).
  { vm_compute. repeat constructor; set_solver. }
  exists response. split; [reflexivity|]. split.
  - rewrite Hdom. vm_compute. reflexivity.
  - split; [|exact Hsize].
    apply (Hlookup Demo.stove). set_solver.
Defined.

(** C3 as stated fails when two returned rows carry one id: the entry of
    that id holds the dict form of the later row, so the earlier row's id
    does not map to the earlier row's dict form, and there are fewer
    entries than rows. *)
Lemma run_data_points_duplicate_id_counterexample :
  exists response results item,
    (Demo.run_demo Demo.self [Demo.tent; Demo.tent_again] ∅).2 = inr response /\
    search_answers (Demo.run_demo Demo.self [Demo.tent; Demo.tent_again] ∅).1
      = [inr results] /\
    item ∈ results /\
    RAGContext.data_points (RetrievalResponse.context response) !! Item.id item
      <> Some (Item.to_dict item) /\
    size (RAGContext.data_points (RetrievalResponse.context response)) <> length results.
Proof.
  eexists. exists [Demo.tent; Demo.tent_again], Demo.tent.
  split; [reflexivity|]. split; [reflexivity|].
  split; [set_solver|]. split.
  - intros H. vm_compute in H. discriminate H.
  - intros H. vm_compute in H. discriminate H.
Qed.

Lemma run_thought_steps_witness :
  exists response,
    (Demo.run_demo Demo.self [Demo.tent; Demo.stove] Demo.text_top1).2 = inr response /\
    length (RAGContext.thoughts (RetrievalResponse.context response)) = 4%nat /\
    (ThoughtStep.description
       <$> RAGContext.thoughts (RetrievalResponse.context response) !! 1%nat)
      = Some (DescStr "return policy").
Proof.
  destruct (Demo.run_demo Demo.self [Demo.tent; Demo.stove] Demo.text_top1).2
    as [e|response] eqn:Hout; [vm_compute in Hout; discriminate Hout|].
  destruct (run_thought_steps Demo.tools Demo.extract Demo.message_str
              unit (Demo.respond [Demo.tent; Demo.stove]) tt Demo.self Demo.messages
              Demo.text_top1 _ _ response
              (surjective_pairing
                 (Demo.run_demo Demo.self [Demo.tent; Demo.stove] Demo.text_top1))
              Hout)
    as (s1 & s2 & s3 & s4 & a & qm & results & cm
        & Hthoughts & _ & _ & _ & _ & Hcall & Hdesc & _).
  exists response. split; [reflexivity|].
  rewrite Hthoughts. split; [reflexivity|].
  cbn. rewrite Hdesc. f_equal. f_equal.
  vm_compute in Hcall. injection Hcall as <-. reflexivity.
Defined.

Lemma run_answer_user_content_witness :
  exists b,
    build_calls (Demo.run_demo Demo.self [Demo.tent; Demo.stove] ∅).1 !! 1%nat = Some b /\
    BuildMessages.new_user_content b
    = "What is the return policy?" +:+ nl +:+ nl +:+ "Sources:" +:+ nl
      +:+ "[1]:Name:Tent Price:99" +:+ nl +:+ nl +:+ nl
      +:+ "[2]:Name:Stove Price:25" +:+ nl +:+ nl.
Proof.
  destruct (build_calls (Demo.run_demo Demo.self [Demo.tent; Demo.stove] ∅).1 !! 1%nat)
    as [b|] eqn:Hb; [|vm_compute in Hb; discriminate Hb].
  destruct (run_answer_user_content Demo.tools Demo.extract Demo.message_str
              unit (Demo.respond [Demo.tent; Demo.stove]) tt Demo.self Demo.messages ∅
              _ _ b
              (surjective_pairing (Demo.run_demo Demo.self [Demo.tent; Demo.stove] ∅))
              Hb)
    as (q & results & Hq & Hresults & Hcontent).
  exists b. split; [reflexivity|].
  rewrite Hcontent.
  vm_compute in Hq. injection Hq as <-.
  vm_compute in Hresults. injection Hresults as <-.
  vm_compute. reflexivity.
Defined.

(** C7 as stated fails on two retrieved rows: what [run] sends has no
    space after the colon of a rendering and a newline between the two
    renderings, so it is not the concatenation the claim describes. *)
Lemma run_answer_user_content_counterexample :
  exists b results,
    build_calls (Demo.run_demo Demo.self [Demo.tent; Demo.stove] ∅).1 !! 1%nat = Some b /\
    search_answers (Demo.run_demo Demo.self [Demo.tent; Demo.stove] ∅).1 = [inr results] /\
    user_query Demo.messages = Some "What is the return policy?" /\
    BuildMessages.new_user_content b
      <> spec_answer_user_content "What is the return policy?" results.
Proof.
  eexists. exists [Demo.tent; Demo.stove].
  split; [reflexivity|]. split; [reflexivity|]. split; [reflexivity|].
  intros H. vm_compute in H. discriminate H.
Qed.

Lemma extract_search_arguments_translation_and_fallback_witness :
  Demo.extract "What is the return policy?" Demo.search_completion
    = inr ("return policy",
           [{| RetrievalFilter.field := "price";
               RetrievalFilter.comparator := "<";
               RetrievalFilter.value := PyInt 30 |}]) /\
  Demo.extract "What is the return policy?" Demo.answer_completion
    = inr ("What is the return policy?", []).
Proof.
  destruct (extract_search_arguments_translation_and_fallback Demo.parse_arguments
              "What is the return policy?" Demo.search_completion)
    as (Hparsed & _ & _ & _).
  destruct (extract_search_arguments_translation_and_fallback Demo.parse_arguments
              "What is the return policy?" Demo.answer_completion)
    as (_ & Habsent & _ & _).
  split.
  - destruct (Hparsed {| ToolCall.type := "function"; ToolCall.name := "search";
                         ToolCall.arguments := "query=return policy;price<30" |}
                      {| QueryRewriter.query := "return policy";
                         QueryRewriter.filter :=
                           [{| QueryRewriter.field := "price";
                               QueryRewriter.comparator := "<";
                               QueryRewriter.value := PyInt 30 |}] |}
                      eq_refl eq_refl) as (filters & Heq & _).
    reflexivity.
  - exact (Habsent eq_refl).
Defined.

(** ** Further behaviour on concrete runs *)

Lemma run_call_order_witness :
  event_kind <$> (Demo.run_demo Demo.self [Demo.tent] ∅).1
  = [BuildKind; ChatKind; SearchKind; BuildKind; ChatKind].
Proof.
  destruct (Demo.run_demo Demo.self [Demo.tent] ∅).2
    as [e|response] eqn:Hout; [vm_compute in Hout; discriminate Hout|].
  exact (proj2 (run_call_order Demo.tools Demo.extract Demo.message_str
                  unit (Demo.respond [Demo.tent]) tt Demo.self Demo.messages ∅
                  _ _ (surjective_pairing (Demo.run_demo Demo.self [Demo.tent] ∅)))
               response Hout).
Defined.

Lemma run_failure_cases_witness :
  exists ev,
    last (interp (Scenario.fail_after [Demo.tent])
            (run Demo.tools Demo.extract Demo.message_str Demo.self Demo.messages ∅)
            2%nat).1 = Some ev /\
    event_kind ev = SearchKind /\
    event_raised ev = Some (CollaboratorError "APIConnectionError").
Proof.
  destruct (run_failure_cases Demo.tools Demo.extract Demo.message_str
              nat (Scenario.fail_after [Demo.tent]) 2%nat Demo.self Demo.messages ∅
              _ _ (CollaboratorError "APIConnectionError")
              (surjective_pairing _) eq_refl)
    as [(Ht & _) | [(Ht & _) | [(Ht & _) | [(ev & Hev & Hraised) | [(Ht & _) | (Ht & _)]]]]];
    try (vm_compute in Ht; discriminate Ht).
  exists ev. split; [exact Hev|]. split; [|exact Hraised].
  vm_compute in Hev. injection Hev as <-. reflexivity.
Defined.

Lemma run_missing_content_key_error_witness :
  interp (Demo.respond [])
    (run Demo.tools Demo.extract Demo.message_str Demo.self Scenario.no_content_messages ∅) tt
  = ([], inl (KeyError "content")).
Proof.
  exact (run_missing_content_key_error Demo.tools Demo.extract Demo.message_str
           unit (Demo.respond []) tt Demo.self Scenario.no_content_messages ∅
           {[ "role" := PyStr "assistant" ]} eq_refl eq_refl).
Defined.

Lemma run_prompt_builder_inputs_witness :
  exists b,
    build_calls (interp (Demo.respond [Demo.tent])
      (run Demo.tools Demo.extract Demo.message_str Demo.self
         Scenario.history_messages ∅) tt).1 !! 1%nat = Some b /\
    BuildMessages.past_messages b = take 2 Scenario.history_messages /\
    BuildMessages.model b = "gpt-4o-mini" /\
    BuildMessages.fallback_to_default b = true.
Proof.
  destruct (build_calls (interp (Demo.respond [Demo.tent])
      (run Demo.tools Demo.extract Demo.message_str Demo.self
         Scenario.history_messages ∅) tt).1 !! 1%nat)
    as [b|] eqn:Hb; [|vm_compute in Hb; discriminate Hb].
  exists b. split; [reflexivity|].
  apply (proj1 (run_prompt_builder_inputs Demo.tools Demo.extract Demo.message_str
                  unit (Demo.respond [Demo.tent]) tt Demo.self
                  (take 2 Scenario.history_messages)
                  (Demo.user_message "What is the return policy?") ∅
                  _ _ (surjective_pairing _))).
  exact (list_elem_of_lookup_2 _ _ _ Hb).
Defined.

Lemma run_system_prompts_witness :
  exists b,
    build_calls (Demo.run_demo Demo.self [Demo.tent]
                   {[ "prompt_template" := PyStr EmptyString ]}).1 !! 1%nat = Some b /\
    BuildMessages.system_prompt b = PyStr "Answer from the sources only.".
Proof.
  destruct (build_calls (Demo.run_demo Demo.self [Demo.tent]
                           {[ "prompt_template" := PyStr EmptyString ]}).1 !! 1%nat)
    as [b|] eqn:Hb; [|vm_compute in Hb; discriminate Hb].
  destruct (run_system_prompts Demo.tools Demo.extract Demo.message_str
              unit (Demo.respond [Demo.tent]) tt Demo.self Demo.messages
              {[ "prompt_template" := PyStr EmptyString ]}
              _ _ (surjective_pairing _)) as (_ & Hanswer).
  destruct (Hanswer b Hb) as (_ & Hfalsy & _).
  exists b. split; [reflexivity|].
  exact (Hfalsy (PyStr EmptyString) eq_refl eq_refl).
Defined.

Lemma run_answer_message_witness :
  exists response,
    (interp (Scenario.respond_with [Demo.tent] Scenario.silent_completion)
       (run Demo.tools Demo.extract Demo.message_str Demo.self Demo.messages ∅) tt).2
    = inr response /\
    Message.content (RetrievalResponse.message response) = "None" /\
    Message.role (RetrievalResponse.message response) = "assistant".
Proof.
  destruct (interp (Scenario.respond_with [Demo.tent] Scenario.silent_completion)
       (run Demo.tools Demo.extract Demo.message_str Demo.self Demo.messages ∅) tt).2
    as [e|response] eqn:Hout; [vm_compute in Hout; discriminate Hout|].
  destruct (run_answer_message Demo.tools Demo.extract Demo.message_str
              unit (Scenario.respond_with [Demo.tent] Scenario.silent_completion) tt
              Demo.self Demo.messages ∅ _ _ response (surjective_pairing _) Hout)
    as (completion & first_choice & others & Hcompletion & Hchoices & Hrole & Hcontent).
  vm_compute in Hcompletion. injection Hcompletion as <-.
  vm_compute in Hchoices. injection Hchoices as <- <-.
  exists response. split; [reflexivity|]. split; [exact Hcontent | exact Hrole].
Defined.

Lemma run_empty_choices_index_error_witness :
  (interp (Scenario.respond_with [Demo.tent] Scenario.no_choice_completion)
     (run Demo.tools Demo.extract Demo.message_str Demo.self Demo.messages ∅) tt).2
  = inl IndexError /\
  length (interp (Scenario.respond_with [Demo.tent] Scenario.no_choice_completion)
     (run Demo.tools Demo.extract Demo.message_str Demo.self Demo.messages ∅) tt).1
  = 5%nat.
Proof.
  exact (run_empty_choices_index_error Demo.tools Demo.extract Demo.message_str
           unit (Scenario.respond_with [Demo.tent] Scenario.no_choice_completion) tt
           Demo.self Demo.messages ∅ _ _ Scenario.no_choice_completion
           (surjective_pairing _) eq_refl eq_refl).
Defined.

Lemma run_extraction_error_propagates_witness :
  (interp (Demo.respond [Demo.tent])
     (run Demo.tools Scenario.raising_extract Demo.message_str
        Demo.self Demo.messages ∅) tt).2
  = inl (ValueError "Expecting value") /\
  search_calls (interp (Demo.respond [Demo.tent])
     (run Demo.tools Scenario.raising_extract Demo.message_str
        Demo.self Demo.messages ∅) tt).1
  = [].
Proof.
  destruct (run_extraction_error_propagates Demo.tools Scenario.raising_extract
              Demo.message_str unit (Demo.respond [Demo.tent]) tt
              Demo.self Demo.messages ∅ _ _
              "What is the return policy?" Demo.search_completion
              (ValueError "Expecting value")
              (surjective_pairing _) eq_refl eq_refl eq_refl) as (Hout & Hnone & _).
  exact (conj Hout Hnone).
Defined.

Lemma run_no_results_witness :
  exists b,
    build_calls (Demo.run_demo Demo.self [] ∅).1 !! 1%nat = Some b /\
    BuildMessages.new_user_content b
    = "What is the return policy?" +:+ nl +:+ nl +:+ "Sources:" +:+ nl.
Proof.
  destruct (run_no_results Demo.tools Demo.extract Demo.message_str
              unit (Demo.respond []) tt Demo.self Demo.messages ∅
              _ _ (surjective_pairing (Demo.run_demo Demo.self [] ∅)) eq_refl)
    as ((b & q & Hb & Hq & Hcontent) & _).
  exists b. split; [exact Hb|].
  rewrite Hcontent. vm_compute in Hq. injection Hq as <-. reflexivity.
Defined.

Lemma run_data_points_count_witness :
  exists response,
    (Demo.run_demo Demo.self [Demo.tent; Demo.tent_again] ∅).2 = inr response /\
    (size (RAGContext.data_points (RetrievalResponse.context response)) < 2)%nat.
Proof.
  destruct (Demo.run_demo Demo.self [Demo.tent; Demo.tent_again] ∅).2
    as [e|response] eqn:Hout; [vm_compute in Hout; discriminate Hout|].
  destruct (run_data_points_count Demo.tools Demo.extract Demo.message_str
              unit (Demo.respond [Demo.tent; Demo.tent_again]) tt Demo.self Demo.messages ∅
              _ _ response [Demo.tent; Demo.tent_again]
              (surjective_pairing (Demo.run_demo Demo.self [Demo.tent; Demo.tent_again] ∅))
              Hout eq_refl) as (Hle & Hfull).
  exists response. split; [reflexivity|].
  cbn [length] in Hle, Hfull.
  destruct (decide (size (RAGContext.data_points (RetrievalResponse.context response))
                    = 2%nat)) as [Heq|Hne]; [|lia].
  apply Hfull in Heq. exfalso.
  apply NoDup_cons in Heq as [Hfresh _]. apply Hfresh. cbn. set_solver.
Defined.

Lemma init_then_run_witness :
  init Scenario.get_token_limit Scenario.read_text "gpt-4o-mini" (Some "chat-eastus")
  = inr Demo.self /\
  exists b,
    build_calls (Demo.run_demo Demo.self [Demo.tent] ∅).1 !! 0%nat = Some b /\
    BuildMessages.max_tokens b = 127500.
Proof.
  split; [reflexivity|].
  destruct (init_then_run Scenario.get_token_limit Scenario.read_text
              Demo.tools Demo.extract Demo.message_str
              "gpt-4o-mini" (Some "chat-eastus") Demo.self
              unit (Demo.respond [Demo.tent]) tt Demo.messages ∅ _ _
              eq_refl (surjective_pairing (Demo.run_demo Demo.self [Demo.tent] ∅)))
    as (limit & query_template & answer_template & Hlimit & _ & _ & Hfirst & _).
  vm_compute in Hlimit. injection Hlimit as <-.
  destruct (build_calls (Demo.run_demo Demo.self [Demo.tent] ∅).1 !! 0%nat)
    as [b|] eqn:Hb; [|vm_compute in Hb; discriminate Hb].
  exists b. split; [reflexivity|].
  exact (proj1 (proj2 (Hfirst b eq_refl))).
Defined.
